(** * SmartLeaf capture screen ([app/(tabs)/index.tsx], [HomeScreen])

    A shallow embedding of the React component [HomeScreen]: its hook state,
    its event handlers (as programs of a small state / exception / trace
    monad, the platform being an explicit environment) and its render
    function (as the tree of elements it returns). *)

From Stdlib Require Import String List Bool ZArith QArith.
Import ListNotations.
Local Open Scope string_scope.

(** ** JavaScript values *)

Module Js.

(** [ToBoolean] on a string: only the empty string is falsy. *)
Definition truthy_string (s : string) : bool :=
  match s with
  | EmptyString => false
  | String _ _ => true
  end.

(** [ToBoolean] on a value of type [string | null]. *)
Definition truthy (v : option string) : bool :=
  match v with
  | None => false
  | Some s => truthy_string s
  end.

(** What a [throw] or a rejected promise carries. *)
Inductive Error : Type :=
| TypeError (message : string)
| NativeError (message : string).

(** How the evaluation of a statement list ends. *)
Inductive Completion (A : Type) : Type :=
| Normal (a : A)
| Throw (e : Error).

Arguments Normal {A} a.
Arguments Throw {A} e.

(** A settled promise, as [await] sees it. *)
Inductive Settled (A : Type) : Type :=
| Resolved (a : A)
| Rejected (e : Error).

Arguments Resolved {A} a.
Arguments Rejected {A} e.

End Js.

(** ** The parts of react-native, expo-camera and expo-image-picker in use *)

(** [Platform.OS]. *)
Inductive PlatformOS : Type := ios | android | web | windows | macos.

Definition PlatformOS_eqb (a b : PlatformOS) : bool :=
  match a, b with
  | ios, ios | android, android | web, web
  | windows, windows | macos, macos => true
  | _, _ => false
  end.

(** The hook's [PermissionResponse]; [granted] is the only field read. *)
Record PermissionResponse : Type := { granted : bool }.

(** The type argument of [useState<'back' | 'front'>]. *)
Inductive CameraType : Type := back | front.

(** [ImagePicker.MediaTypeOptions]. *)
Inductive MediaTypeOptions : Type := All | Videos | Images.

(** The object literal handed to [launchImageLibraryAsync]. *)
Record ImagePickerOptions : Type := {
  mediaTypes : MediaTypeOptions;
  allowsEditing : bool;
  aspect : Z * Z;
  quality : Q
}.

Record ImagePickerAsset : Type := { asset_uri : string }.

(** [ImagePickerResult]: [assets] is [null] when the picker was canceled. *)
Record ImagePickerResult : Type := {
  canceled : bool;
  assets : option (list ImagePickerAsset)
}.

Record CameraCapturedPicture : Type := { photo_uri : string }.

(** A mounted [CameraView] instance, as held by [cameraRef.current]. *)
Record CameraView : Type := { view_tag : nat }.

(** What the platform answers during one handler run. *)
Record Env : Type := {
  launchImageLibraryAsync : ImagePickerOptions -> Js.Settled ImagePickerResult;
  takePictureAsync : CameraView -> Js.Settled (option CameraCapturedPicture);
  requestPermissionAsync : Js.Settled PermissionResponse
}.

(** ** Hook state of [HomeScreen] *)

Record HomeState : Type := {
  permission : option PermissionResponse;
  facing : CameraType;
  capturedImage : option string
}.

Definition setFacing (u : CameraType -> CameraType) (s : HomeState) : HomeState :=
  {| permission := permission s;
     facing := u (facing s);
     capturedImage := capturedImage s |}.

Definition setCapturedImage (v : option string) (s : HomeState) : HomeState :=
  {| permission := permission s;
     facing := facing s;
     capturedImage := v |}.

Definition setPermission (p : option PermissionResponse) (s : HomeState) : HomeState :=
  {| permission := p;
     facing := facing s;
     capturedImage := capturedImage s |}.

(** The state of the first render: [useCameraPermissions] has not resolved,
    [useState('back')], [useState(null)]. *)
Definition initialState : HomeState :=
  {| permission := None; facing := back; capturedImage := None |}.

(** The three cases the render distinguishes on [permission]:
    [!permission], [permission.granted], [!permission.granted]. *)
Inductive PermissionStatus : Type := Unknown | Granted | Denied.

Definition permissionStatus (s : HomeState) : PermissionStatus :=
  match permission s with
  | None => Unknown
  | Some r => if granted r then Granted else Denied
  end.

(** The two states of the capture flow, by the image reference held. *)
Definition Idle (s : HomeState) : Prop := capturedImage s = None.
Definition Previewing (s : HomeState) : Prop := capturedImage s <> None.

(** ** Handler programs *)

(** What a handler does to the outside, in order. *)
Inductive Effect : Type :=
| CallLaunchImageLibrary (options : ImagePickerOptions)
| CallTakePicture (camera : CameraView)
| CallRequestPermission
| AlertAlert (title message : string).

Definition M (A : Type) : Type :=
  HomeState -> Js.Completion A * HomeState * list Effect.

Definition ret {A} (a : A) : M A := fun s => (Js.Normal a, s, []).

Definition bind {A B} (m : M A) (k : A -> M B) : M B :=
  fun s =>
    match m s with
    | (Js.Normal a, s1, t1) =>
        let '(r, s2, t2) := k a s1 in (r, s2, (t1 ++ t2)%list)
    | (Js.Throw e, s1, t1) => (Js.Throw e, s1, t1)
    end.

Definition throw {A} (e : Js.Error) : M A := fun s => (Js.Throw e, s, []).

(** [try { m } catch (error) { h error }]. *)
Definition try_catch {A} (m : M A) (h : Js.Error -> M A) : M A :=
  fun s =>
    match m s with
    | (Js.Normal a, s1, t1) => (Js.Normal a, s1, t1)
    | (Js.Throw e, s1, t1) =>
        let '(r, s2, t2) := h e s1 in (r, s2, (t1 ++ t2)%list)
    end.

Definition emit (e : Effect) : M unit := fun s => (Js.Normal tt, s, [e]).

Definition update (f : HomeState -> HomeState) : M unit :=
  fun s => (Js.Normal tt, f s, []).

(** [await p]: the value of a resolved promise, a throw for a rejected one. *)
Definition await {A} (p : Js.Settled A) : M A :=
  match p with
  | Js.Resolved a => ret a
  | Js.Rejected e => throw e
  end.

Declare Scope handler_scope.
Delimit Scope handler_scope with handler.
Notation "x <- m ;; k" := (bind m (fun x => k))
  (at level 61, m at next level, right associativity) : handler_scope.
Notation "m ;; k" := (bind m (fun _ => k))
  (at level 61, right associativity) : handler_scope.
Local Open Scope handler_scope.

Definition alert (title message : string) : M unit :=
  emit (AlertAlert title message).

(** The options literal of [handleUploadImage]. *)
Definition uploadOptions : ImagePickerOptions :=
  {| mediaTypes := Images;
     allowsEditing := true;
     aspect := (4, 3)%Z;
     quality := 1%Q |}.

(** [result.assets[0].uri]: reading a property of [null] or [undefined]
    throws a [TypeError]. *)
Definition first_asset_uri (result : ImagePickerResult) : M string :=
  match assets result with
  | None => throw (Js.TypeError "Cannot read properties of null")
  | Some [] => throw (Js.TypeError "Cannot read properties of undefined")
  | Some (a :: _) => ret (asset_uri a)
  end.

Definition handleUploadImage (env : Env) : M unit :=
  try_catch
    (emit (CallLaunchImageLibrary uploadOptions) ;;
     result <- await (launchImageLibraryAsync env uploadOptions) ;;
     if negb (canceled result)
     then uri <- first_asset_uri result ;; update (setCapturedImage (Some uri))
     else ret tt)
    (fun _ => alert "Error" "Failed to pick image").

Definition isWeb (os : PlatformOS) : bool := PlatformOS_eqb os web.

Definition handleCapturePhoto
    (os : PlatformOS) (env : Env) (cameraRef : option CameraView) : M unit :=
  if PlatformOS_eqb os web
  then alert "Camera Not Available" "Camera is only available on mobile devices."
  else
    try_catch
      (match cameraRef with
       | Some camera =>
           emit (CallTakePicture camera) ;;
           photo <- await (takePictureAsync env camera) ;;
           match photo with
           | Some p => update (setCapturedImage (Some (photo_uri p)))
           | None => ret tt
           end
       | None => ret tt
       end)
      (fun _ => alert "Error" "Failed to capture photo").

(** [current => (current === 'back' ? 'front' : 'back')]. *)
Definition flip (current : CameraType) : CameraType :=
  match current with
  | back => front
  | front => back
  end.

Definition toggleFacing : M unit := update (setFacing flip).

Definition retake : M unit := update (setCapturedImage None).

Definition analyze : M unit := alert "Analyzing" "Processing image...".

(** [requestPermission] of [useCameraPermissions]: asks the platform and
    stores the answer in the hook. *)
Definition requestPermission (env : Env) : M unit :=
  emit CallRequestPermission ;;
  r <- await (requestPermissionAsync env) ;;
  update (setPermission (Some r)).

(** The effect run on mount. *)
Definition onMount (os : PlatformOS) (env : Env) : M unit :=
  if negb (PlatformOS_eqb os web) then requestPermission env else ret tt.

(** ** What [HomeScreen] returns *)

(** The functions bound to [onPress] somewhere in the tree. *)
Inductive Handler : Type :=
| HandleUploadImage
| HandleCapturePhoto
| ToggleFacing
| Retake
| Analyze
| RequestPermission.

Definition Handler_eqb (a b : Handler) : bool :=
  match a, b with
  | HandleUploadImage, HandleUploadImage
  | HandleCapturePhoto, HandleCapturePhoto
  | ToggleFacing, ToggleFacing
  | Retake, Retake
  | Analyze, Analyze
  | RequestPermission, RequestPermission => true
  | _, _ => false
  end.

(** The value of a JSX child [c && <element/>]: the element, or the falsy
    value [c] evaluated to, for which nothing is displayed. *)
Inductive Child (A : Type) : Type :=
| ChildFalse
| ChildNull
| ChildString (s : string)
| ChildElement (a : A).

Arguments ChildFalse {A}.
Arguments ChildNull {A}.
Arguments ChildString {A} s.
Arguments ChildElement {A} a.

(** The child of [styles.cameraContainer]. *)
Inductive CameraContainer : Type :=
| PreviewImage (uri : string)
| WebPlaceholder (uploadOnlyButton : Handler)
| CameraViewElement (facing : CameraType).

(** [styles.controls]: gallery, shutter and camera-reverse buttons. *)
Record Controls : Type := {
  uploadButton : Handler;
  captureButton : Handler;
  reverseButton : Handler
}.

(** [styles.bottomAction]. *)
Record BottomAction : Type := {
  retakeButton : Handler;
  analyzeButton : Handler
}.

(** The three [return]s of the component; the header of the last one has
    no state and no handler and is left out. *)
Inductive Screen : Type :=
| LoadingContainer
| PermissionContainer (permissionButton : Handler)
| Container (cameraContainer : CameraContainer)
            (controls : Child Controls)
            (bottomAction : Child BottomAction).

Definition controlsElement : Controls :=
  {| uploadButton := HandleUploadImage;
     captureButton := HandleCapturePhoto;
     reverseButton := ToggleFacing |}.

Definition bottomActionElement : BottomAction :=
  {| retakeButton := Retake; analyzeButton := Analyze |}.

(** [capturedImage ? <Image/> : isWeb ? <View webPlaceholder/> : <CameraView/>] *)
Definition renderCameraContainer (os : PlatformOS) (s : HomeState) : CameraContainer :=
  let otherwise :=
    if isWeb os then WebPlaceholder HandleUploadImage
    else CameraViewElement (facing s) in
  match capturedImage s with
  | Some uri => if Js.truthy_string uri then PreviewImage uri else otherwise
  | None => otherwise
  end.

(** [!isWeb && !capturedImage && (<View controls/>)] *)
Definition renderControls (os : PlatformOS) (s : HomeState) : Child Controls :=
  if negb (isWeb os)
  then if negb (Js.truthy (capturedImage s))
       then ChildElement controlsElement
       else ChildFalse
  else ChildFalse.

(** [capturedImage && (<View bottomAction/>)] *)
Definition renderBottomAction (s : HomeState) : Child BottomAction :=
  match capturedImage s with
  | None => ChildNull
  | Some uri =>
      if Js.truthy_string uri then ChildElement bottomActionElement
      else ChildString uri
  end.

Definition render (os : PlatformOS) (s : HomeState) : Screen :=
  match permission s with
  | None =>
      (* [!isWeb && !permission] *)
      if negb (isWeb os) then LoadingContainer
      else Container (renderCameraContainer os s)
                     (renderControls os s) (renderBottomAction s)
  | Some r =>
      (* [!isWeb && permission && !permission.granted] *)
      if negb (isWeb os) && negb (granted r)
      then PermissionContainer RequestPermission
      else Container (renderCameraContainer os s)
                     (renderControls os s) (renderBottomAction s)
  end.

(** *** Reading a returned tree *)

Definition isElement {A} (c : Child A) : bool :=
  match c with
  | ChildElement _ => true
  | _ => false
  end.

Definition cameraViewRendered (v : Screen) : bool :=
  match v with
  | Container (CameraViewElement _) _ _ => true
  | _ => false
  end.

Definition uploadFallbackRendered (v : Screen) : bool :=
  match v with
  | Container (WebPlaceholder _) _ _ => true
  | _ => false
  end.

Definition previewRendered (v : Screen) : option string :=
  match v with
  | Container (PreviewImage uri) _ _ => Some uri
  | _ => None
  end.

Definition controlsRendered (v : Screen) : bool :=
  match v with
  | Container _ c _ => isElement c
  | _ => false
  end.

Definition bottomActionRendered (v : Screen) : bool :=
  match v with
  | Container _ _ b => isElement b
  | _ => false
  end.

Definition gateRendered (v : Screen) : bool :=
  match v with
  | LoadingContainer | PermissionContainer _ => true
  | Container _ _ _ => false
  end.

(** The handlers of the touchables present in a tree, in document order. *)
Definition pressable (v : Screen) : list Handler :=
  match v with
  | LoadingContainer => []
  | PermissionContainer h => [h]
  | Container cc c b =>
      (match cc with
       | WebPlaceholder h => [h]
       | _ => []
       end ++
       match c with
       | ChildElement row => [uploadButton row; captureButton row; reverseButton row]
       | _ => []
       end ++
       match b with
       | ChildElement row => [retakeButton row; analyzeButton row]
       | _ => []
       end)%list
  end.

(** ** Events *)

Definition handler (os : PlatformOS) (env : Env) (cameraRef : option CameraView)
    (h : Handler) : M unit :=
  match h with
  | HandleUploadImage => handleUploadImage env
  | HandleCapturePhoto => handleCapturePhoto os env cameraRef
  | ToggleFacing => toggleFacing
  | Retake => retake
  | Analyze => analyze
  | RequestPermission => requestPermission env
  end.

(** A tap reaches a handler only through a touchable of the current tree. *)
Definition press (os : PlatformOS) (env : Env) (cameraRef : option CameraView)
    (h : Handler) : M unit :=
  fun s =>
    if existsb (Handler_eqb h) (pressable (render os s))
    then handler os env cameraRef h s
    else ret tt s.

Definition completion_of {A} (r : Js.Completion A * HomeState * list Effect)
  : Js.Completion A := fst (fst r).
Definition state_of {A} (r : Js.Completion A * HomeState * list Effect)
  : HomeState := snd (fst r).
Definition trace_of {A} (r : Js.Completion A * HomeState * list Effect)
  : list Effect := snd r.

(** * Properties *)

(** ** Concrete inputs *)

Module Sample.

Definition grantedResponse : PermissionResponse := {| granted := true |}.
Definition deniedResponse : PermissionResponse := {| granted := false |}.

Definition photo1 : string := "file://tmp/photo1.jpg".

(** Camera platform, permission granted, nothing captured. *)
Definition live : HomeState :=
  {| permission := Some grantedResponse; facing := back; capturedImage := None |}.

(** The same with an image held. *)
Definition holding : HomeState := setCapturedImage (Some photo1) live.

(** The same with the empty string as the stored reference. *)
Definition holdingEmpty : HomeState := setCapturedImage (Some EmptyString) live.

Definition camera0 : CameraView := {| view_tag := 0 |}.

Definition boom : Js.Error := Js.NativeError "E_FAILED".

(** A platform on which every call fails. *)
Definition failing : Env :=
  {| launchImageLibraryAsync := fun _ => Js.Rejected boom;
     takePictureAsync := fun _ => Js.Rejected boom;
     requestPermissionAsync := Js.Rejected boom |}.

(** A platform whose picker is dismissed by the user. *)
Definition dismissing : Env :=
  {| launchImageLibraryAsync :=
       fun _ => Js.Resolved {| canceled := true; assets := None |};
     takePictureAsync := fun _ => Js.Resolved None;
     requestPermissionAsync := Js.Resolved deniedResponse |}.

(** A platform on which picking and capturing both yield [photo1]. *)
Definition working : Env :=
  {| launchImageLibraryAsync :=
       fun _ => Js.Resolved {| canceled := false;
                               assets := Some [ {| asset_uri := photo1 |} ] |};
     takePictureAsync := fun _ => Js.Resolved (Some {| photo_uri := photo1 |});
     requestPermissionAsync := Js.Resolved grantedResponse |}.

(** A platform whose picker and camera answer with an empty [uri]. *)
Definition blank : Env :=
  {| launchImageLibraryAsync :=
       fun _ => Js.Resolved {| canceled := false;
                               assets := Some [ {| asset_uri := EmptyString |} ] |};
     takePictureAsync := fun _ => Js.Resolved (Some {| photo_uri := EmptyString |});
     requestPermissionAsync := Js.Resolved grantedResponse |}.

End Sample.

(** A run of taps, each on the tree rendered from the state the previous
    one left. *)
Definition taps (os : PlatformOS) (env : Env) (cameraRef : option CameraView)
    (hs : list Handler) (s : HomeState) : HomeState :=
  fold_left (fun s h => state_of (press os env cameraRef h s)) hs s.

(** One tap, with what the platform would answer at that moment and the
    camera instance [cameraRef.current] holds then. *)
Record Event : Type := {
  answers : Env;
  mounted : option CameraView;
  tapped : Handler
}.

(** The state and the effects, in order, of a sequence of taps. *)
Fixpoint run (os : PlatformOS) (es : list Event) (s : HomeState)
  : HomeState * list Effect :=
  match es with
  | [] => (s, [])
  | e :: rest =>
      let out := press os (answers e) (mounted e) (tapped e) s in
      let '(s', t) := run os rest (state_of out) in
      (s', (trace_of out ++ t)%list)
  end.

Definition isNotice (e : Effect) : bool :=
  match e with
  | AlertAlert _ _ => true
  | _ => false
  end.

Definition isPlatformCall (e : Effect) : bool :=
  match e with
  | AlertAlert _ _ => false
  | _ => true
  end.

(** The references a platform hands out in answer to the upload or the
    capture handler. *)
Definition offers (env : Env) (cameraRef : option CameraView) (uri : string) : Prop :=
  (exists r a rest,
     launchImageLibraryAsync env uploadOptions = Js.Resolved r /\
     canceled r = false /\
     assets r = Some (a :: rest) /\
     asset_uri a = uri) \/
  (exists camera p,
     cameraRef = Some camera /\
     takePictureAsync env camera = Js.Resolved (Some p) /\
     photo_uri p = uri).

(** ** Proof steps *)

(** Splits a goal about [render os s] into the cases of the platform, of
    [permission] and of [capturedImage]. *)
Ltac render_cases os s :=
  destruct s as [[[[|]]|] ?f [[|?c ?u]|]]; destruct os; cbn in *.

(** Unfolds a handler down to the platform's answers. *)
Ltac run_handler :=
  unfold handleUploadImage, handleCapturePhoto, toggleFacing, retake, analyze,
    requestPermission, first_asset_uri, try_catch, bind, alert, emit, update,
    await, ret, throw.

(** Takes hypotheses apart and closes what constructors decide. *)
Ltac break :=
  repeat match goal with
         | H : _ /\ _ |- _ => destruct H
         | H : exists _, _ |- _ => destruct H
         | H : _ \/ _ |- _ => destruct H
         | H : False |- _ => destruct H
         | H : Some _ = Some _ |- _ => injection H as H
         | H : ?a <> ?a |- _ => contradiction H; reflexivity
         end;
  subst; try congruence.

(** ** The render function, case by case *)

Lemma isWeb_iff (os : PlatformOS) : isWeb os = true <-> os = web.
Proof. destruct os; cbn; split; congruence. Qed.

Lemma truthy_Some (v : option string) :
  Js.truthy v = true -> exists uri, v = Some uri /\ Js.truthy_string uri = true.
Proof.
  destruct v as [uri|]; cbn; intros H; [eauto | discriminate].
Qed.

Lemma truthy_None : Js.truthy None = false.
Proof. reflexivity. Qed.

Lemma render_web (s : HomeState) :
  render web s =
  Container (renderCameraContainer web s) ChildFalse (renderBottomAction s).
Proof.
  unfold render. destruct (permission s); reflexivity.
Qed.

Lemma render_loading (os : PlatformOS) (s : HomeState) :
  isWeb os = false -> permission s = None -> render os s = LoadingContainer.
Proof.
  intros Hw Hp. unfold render. rewrite Hp, Hw. reflexivity.
Qed.

Lemma render_denied (os : PlatformOS) (s : HomeState) (r : PermissionResponse) :
  isWeb os = false -> permission s = Some r -> granted r = false ->
  render os s = PermissionContainer RequestPermission.
Proof.
  intros Hw Hp Hg. unfold render. rewrite Hp, Hw, Hg. reflexivity.
Qed.

Lemma render_granted (os : PlatformOS) (s : HomeState) (r : PermissionResponse) :
  isWeb os = false -> permission s = Some r -> granted r = true ->
  render os s =
  Container (renderCameraContainer os s) (renderControls os s) (renderBottomAction s).
Proof.
  intros Hw Hp Hg. unfold render. rewrite Hp, Hw, Hg. reflexivity.
Qed.

Lemma cameraContainer_falsy (os : PlatformOS) (s : HomeState) :
  Js.truthy (capturedImage s) = false ->
  renderCameraContainer os s =
  if isWeb os then WebPlaceholder HandleUploadImage else CameraViewElement (facing s).
Proof.
  unfold renderCameraContainer. destruct (capturedImage s) as [uri|]; cbn.
  - intros ->. reflexivity.
  - reflexivity.
Qed.

Lemma cameraContainer_truthy (os : PlatformOS) (s : HomeState) (uri : string) :
  capturedImage s = Some uri -> Js.truthy_string uri = true ->
  renderCameraContainer os s = PreviewImage uri.
Proof.
  intros Hc Ht. unfold renderCameraContainer. rewrite Hc, Ht. reflexivity.
Qed.

Lemma bottomAction_isElement (s : HomeState) :
  isElement (renderBottomAction s) = Js.truthy (capturedImage s).
Proof.
  unfold renderBottomAction. destruct (capturedImage s) as [uri|]; cbn.
  - destruct (Js.truthy_string uri); reflexivity.
  - reflexivity.
Qed.

Lemma controls_isElement (os : PlatformOS) (s : HomeState) :
  isElement (renderControls os s) =
  negb (isWeb os) && negb (Js.truthy (capturedImage s)).
Proof.
  unfold renderControls.
  destruct (isWeb os); cbn; [reflexivity|].
  destruct (Js.truthy (capturedImage s)); reflexivity.
Qed.

(** The screen is one of the two gate views exactly on a camera platform
    whose permission is not granted. *)
Lemma gateRendered_spec (os : PlatformOS) (s : HomeState) :
  gateRendered (render os s) =
  negb (isWeb os) &&
  match permissionStatus s with Granted => false | _ => true end.
Proof.
  unfold render, permissionStatus.
  destruct (permission s) as [r|]; destruct (isWeb os); cbn;
    try reflexivity.
  destruct (granted r); reflexivity.
Qed.

(** Outside the gate the main view is returned. *)
Lemma render_main (os : PlatformOS) (s : HomeState) :
  gateRendered (render os s) = false ->
  render os s =
  Container (renderCameraContainer os s) (renderControls os s) (renderBottomAction s).
Proof.
  unfold render.
  destruct (permission s) as [r|]; destruct (isWeb os); cbn;
    try reflexivity; try discriminate.
  destruct (granted r); cbn; [reflexivity | discriminate].
Qed.

Lemma cameraViewRendered_spec (os : PlatformOS) (s : HomeState) :
  cameraViewRendered (render os s) =
  negb (gateRendered (render os s)) &&
  negb (isWeb os) && negb (Js.truthy (capturedImage s)).
Proof.
  destruct (gateRendered (render os s)) eqn:Hg.
  - destruct (render os s); cbn in *; congruence.
  - rewrite (render_main _ _ Hg). cbn.
    unfold renderCameraContainer.
    destruct (capturedImage s) as [uri|]; cbn.
    + destruct (Js.truthy_string uri); destruct (isWeb os); reflexivity.
    + destruct (isWeb os); reflexivity.
Qed.

Lemma uploadFallbackRendered_spec (os : PlatformOS) (s : HomeState) :
  uploadFallbackRendered (render os s) =
  isWeb os && negb (Js.truthy (capturedImage s)).
Proof.
  destruct (gateRendered (render os s)) eqn:Hg.
  - pose proof (gateRendered_spec os s) as Hs. rewrite Hg in Hs.
    destruct (isWeb os); cbn in Hs; [discriminate|].
    destruct (render os s); cbn in *; congruence.
  - rewrite (render_main _ _ Hg). cbn.
    unfold renderCameraContainer.
    destruct (capturedImage s) as [uri|]; cbn.
    + destruct (Js.truthy_string uri); cbn.
      * destruct (isWeb os); reflexivity.
      * destruct (isWeb os); reflexivity.
    + destruct (isWeb os); reflexivity.
Qed.

Lemma controlsRendered_spec (os : PlatformOS) (s : HomeState) :
  controlsRendered (render os s) =
  negb (gateRendered (render os s)) &&
  negb (isWeb os) && negb (Js.truthy (capturedImage s)).
Proof.
  destruct (gateRendered (render os s)) eqn:Hg.
  - destruct (render os s); cbn in *; congruence.
  - rewrite (render_main _ _ Hg). cbn. apply controls_isElement.
Qed.

Lemma bottomActionRendered_spec (os : PlatformOS) (s : HomeState) :
  bottomActionRendered (render os s) =
  negb (gateRendered (render os s)) && Js.truthy (capturedImage s).
Proof.
  destruct (gateRendered (render os s)) eqn:Hg.
  - destruct (render os s); cbn in *; congruence.
  - rewrite (render_main _ _ Hg). cbn. apply bottomAction_isElement.
Qed.

(** [!capturedImage] holds for [null] and for the empty string only. *)
Lemma falsy_iff (v : option string) :
  Js.truthy v = false <-> v = None \/ v = Some EmptyString.
Proof.
  destruct v as [[|c u]|]; cbn; split; intros H;
    try reflexivity; try discriminate; auto.
  all: destruct H as [H|H]; discriminate.
Qed.

Lemma truthy_iff (v : option string) :
  Js.truthy v = true <-> exists uri, v = Some uri /\ uri <> EmptyString.
Proof.
  destruct v as [[|c u]|]; cbn; split; intros H; try discriminate; try reflexivity.
  - destruct H as (uri & [= <-] & Hne). congruence.
  - exists (String c u). split; [reflexivity | discriminate].
  - destruct H as (uri & [=] & _).
Qed.

Lemma granted_iff (s : HomeState) :
  permissionStatus s = Granted <-> exists r, permission s = Some r /\ granted r = true.
Proof.
  unfold permissionStatus. destruct (permission s) as [[[|]]|]; cbn; split;
    intros H; try discriminate; try reflexivity; eauto.
  - destruct H as (r & [= <-] & Hg). discriminate.
  - destruct H as (r & [=] & _).
Qed.

(** ** The walks of the specification's scenarios *)

(** No camera support: the fallback is rendered, and a dismissed picker
    leaves the state and the tree as they were. *)
Example scenario_web_upload_dismissed :
  uploadFallbackRendered (render web initialState) = true /\
  taps web Sample.dismissing None [HandleUploadImage] initialState = initialState.
Proof. split; reflexivity. Qed.

(** Camera platform: loading while the permission is unresolved, the
    permission view once denied, the viewfinder once granted on retry. *)
Example scenario_permission_flow :
  render ios initialState = LoadingContainer /\
  render ios (state_of (onMount ios Sample.dismissing initialState)) =
    PermissionContainer RequestPermission /\
  cameraViewRendered
    (render ios (taps ios Sample.working None [RequestPermission]
                   (state_of (onMount ios Sample.dismissing initialState)))) = true.
Proof. repeat split; reflexivity. Qed.

(** Capture, analyze, retake. *)
Example scenario_capture_analyze_retake :
  let cam := Some Sample.camera0 in
  let s1 := taps ios Sample.working cam [HandleCapturePhoto] Sample.live in
  previewRendered (render ios s1) = Some Sample.photo1 /\
  press ios Sample.working cam Analyze s1 =
    (Js.Normal tt, s1, [AlertAlert "Analyzing" "Processing image..."]) /\
  taps ios Sample.working cam [Retake] s1 = Sample.live /\
  cameraViewRendered (render ios Sample.live) = true.
Proof. repeat split; reflexivity. Qed.

(** Back, front, back; and no change while the preview is shown. *)
Example scenario_toggle :
  let cam := Some Sample.camera0 in
  facing (taps ios Sample.working cam [ToggleFacing] Sample.live) = front /\
  taps ios Sample.working cam [ToggleFacing; ToggleFacing] Sample.live = Sample.live /\
  taps ios Sample.working cam [ToggleFacing] Sample.holding = Sample.holding.
Proof. repeat split; reflexivity. Qed.

(** The handlers store whatever reference the platform hands back, the
    empty string included. *)
Example empty_reference_is_stored :
  taps ios Sample.blank (Some Sample.camera0) [HandleUploadImage] Sample.live
    = Sample.holdingEmpty /\
  taps ios Sample.blank (Some Sample.camera0) [HandleCapturePhoto] Sample.live
    = Sample.holdingEmpty.
Proof. split; reflexivity. Qed.

(** The viewfinder is in the tree of an image-less state of a camera
    platform whose permission is granted. *)
Lemma camera_live (os : PlatformOS) (s : HomeState) :
  capturedImage s = None \/ capturedImage s = Some EmptyString ->
  isWeb os = false ->
  permissionStatus s = Granted ->
  cameraViewRendered (render os s) = true.
Proof.
  intros Hc Hw Hg. apply falsy_iff in Hc.
  rewrite cameraViewRendered_spec, gateRendered_spec, Hw, Hg, Hc. reflexivity.
Qed.

(** Conversely, the viewfinder is in no other tree. *)
Lemma camera_view_only_live (os : PlatformOS) (s : HomeState) :
  cameraViewRendered (render os s) = true ->
  isWeb os = false /\ permissionStatus s = Granted /\
  (capturedImage s = None \/ capturedImage s = Some EmptyString).
Proof.
  rewrite cameraViewRendered_spec, gateRendered_spec, <- falsy_iff.
  destruct (isWeb os), (permissionStatus s), (Js.truthy (capturedImage s));
    cbn; intros H; try discriminate H; auto.
Qed.

(** ** C1: when the camera viewfinder is rendered *)

(** C1: in every render of the capture screen whose image reference, when
    one is held, is a reference the platform can hand out (a uri, not the
    empty string), the live camera viewfinder is rendered if and only if
    [capturedImage] is [null], the platform is not web, and the permission
    is granted. *)
Theorem camera_view_rendered_iff (os : PlatformOS) (s : HomeState) :
  capturedImage s <> Some EmptyString ->
  (cameraViewRendered (render os s) = true <->
   capturedImage s = None /\
   isWeb os = false /\
   permissionStatus s = Granted).
Proof.
  intros Hvalid. split.
  - intros H. apply camera_view_only_live in H.
    destruct H as (Hw & Hg & [Hnone|Hempty]); [auto | contradiction].
  - intros (Hnone & Hw & Hg). apply camera_live; auto.
Qed.

Lemma camera_view_rendered_iff_live :
  cameraViewRendered (render android Sample.live) = true.
Proof.
  apply (camera_view_rendered_iff android Sample.live).
  - discriminate.
  - split; [reflexivity | split; reflexivity].
Defined.

(** The render tests [capturedImage] for truthiness, so the empty string,
    were the platform ever to hand it out, is treated like [null]: this is
    the one state the hypothesis on the reference leaves aside. *)
Lemma camera_view_rendered_with_empty_reference :
  cameraViewRendered (render ios Sample.holdingEmpty) = true.
Proof. reflexivity. Qed.

(** ** C2: platforms without camera support *)

(** C2, as amended: on a platform without camera support the permission
    gate is bypassed entirely: whatever [permission] holds, neither the
    loading view nor the permission view is returned and the returned tree
    does not depend on [permission]; the camera viewfinder is never
    rendered; and the upload-only fallback is rendered exactly when no image
    is shown ([capturedImage] is [null] or empty), the preview of the image
    taking its place otherwise. *)
Theorem web_bypasses_permission_gate (os : PlatformOS) (s : HomeState) :
  isWeb os = true ->
  gateRendered (render os s) = false /\
  (forall p, render os (setPermission p s) = render os s) /\
  cameraViewRendered (render os s) = false /\
  (uploadFallbackRendered (render os s) = true <->
   capturedImage s = None \/ capturedImage s = Some EmptyString) /\
  (forall uri, capturedImage s = Some uri -> uri <> EmptyString ->
     previewRendered (render os s) = Some uri).
Proof.
  intros Hw. apply isWeb_iff in Hw. subst os.
  repeat split.
  - rewrite gateRendered_spec. reflexivity.
  - intros p. rewrite !render_web. reflexivity.
  - rewrite cameraViewRendered_spec. cbn.
    destruct (gateRendered (render web s)); reflexivity.
  - rewrite uploadFallbackRendered_spec. cbn. intros H.
    apply falsy_iff. destruct (Js.truthy (capturedImage s)); [discriminate | reflexivity].
  - rewrite uploadFallbackRendered_spec. cbn. intros H.
    apply falsy_iff in H. rewrite H. reflexivity.
  - intros uri Hc Hne. rewrite render_web. cbn.
    rewrite (cameraContainer_truthy web s uri Hc); [reflexivity|].
    destruct uri; [congruence | reflexivity].
Qed.

Lemma web_bypasses_permission_gate_unknown :
  gateRendered (render web initialState) = false /\
  uploadFallbackRendered (render web initialState) = true.
Proof.
  destruct (web_bypasses_permission_gate web initialState eq_refl)
    as (Hgate & _ & _ & Hfallback & _).
  split; [exact Hgate | apply Hfallback; left; reflexivity].
Defined.

(** C2 as the specification words it fails once an image has been picked:
    on web the preview is rendered and the upload-only fallback is not. *)
Lemma web_fallback_not_rendered_with_image :
  ~ (isWeb web = true ->
     uploadFallbackRendered (render web Sample.holding) = true /\
     cameraViewRendered (render web Sample.holding) = false).
Proof.
  intros H. destruct (H eq_refl) as [Hf _]. discriminate Hf.
Qed.

(** ** C8: which controls are rendered *)

(** C8: in every render whose image reference, when one is held, is not
    the empty string, each control of the two rows is rendered only when
    its precondition holds: the capture-controls row, with its upload,
    capture and toggle buttons, only when [capturedImage] is [null] and the
    platform supports the camera (an upload button on a platform without
    camera support is never one of the row: there the row is absent); the
    bottom-action row, with retake and analyze, only when an image
    reference is held; and the two rows are never rendered together. *)
Theorem controls_rendered_under_preconditions (os : PlatformOS) (s : HomeState) :
  capturedImage s <> Some EmptyString ->
  let v := render os s in
  (controlsRendered v = true -> capturedImage s = None /\ isWeb os = false) /\
  (In HandleCapturePhoto (pressable v) -> capturedImage s = None /\ isWeb os = false) /\
  (In ToggleFacing (pressable v) -> capturedImage s = None /\ isWeb os = false) /\
  (In HandleUploadImage (pressable v) ->
   capturedImage s = None /\ (isWeb os = false \/ controlsRendered v = false)) /\
  (bottomActionRendered v = true -> Previewing s) /\
  (In Retake (pressable v) -> Previewing s) /\
  (In Analyze (pressable v) -> Previewing s) /\
  ~ (controlsRendered v = true /\ bottomActionRendered v = true).
Proof.
  intros Hvalid. cbv zeta. unfold Previewing.
  render_cases os s;
    repeat split; unfold not; intros; break; auto; try discriminate.
Qed.

Lemma controls_rendered_under_preconditions_holding :
  Previewing Sample.holding.
Proof.
  assert (Hvalid : capturedImage Sample.holding <> Some EmptyString)
    by discriminate.
  destruct (controls_rendered_under_preconditions ios Sample.holding Hvalid)
    as (_ & _ & _ & _ & _ & Hretake & _).
  apply Hretake. cbn. left. reflexivity.
Defined.

(** On web the upload button of the placeholder is rendered while the
    controls row is not. *)
Lemma upload_control_rendered_on_web :
  In HandleUploadImage (pressable (render web initialState)) /\
  controlsRendered (render web initialState) = false.
Proof. split; [cbn; left; reflexivity | reflexivity]. Qed.

(** ** The handlers, outcome by outcome *)

Lemma setCapturedImage_same (s : HomeState) :
  setCapturedImage (capturedImage s) s = s.
Proof. destruct s; reflexivity. Qed.

Lemma setCapturedImage_twice (v w : option string) (s : HomeState) :
  setCapturedImage w (setCapturedImage v s) = setCapturedImage w s.
Proof. reflexivity. Qed.

Lemma flip_involutive (c : CameraType) : flip (flip c) = c.
Proof. destruct c; reflexivity. Qed.

Lemma flip_changes (c : CameraType) : flip c <> c.
Proof. destruct c; discriminate. Qed.

Lemma setFacing_flip_twice (s : HomeState) :
  setFacing flip (setFacing flip s) = s.
Proof. destruct s as [p f c]; unfold setFacing; cbn. rewrite flip_involutive. reflexivity. Qed.

Lemma handleUploadImage_rejected (env : Env) (s : HomeState) (e : Js.Error) :
  launchImageLibraryAsync env uploadOptions = Js.Rejected e ->
  handleUploadImage env s =
  (Js.Normal tt, s,
   [CallLaunchImageLibrary uploadOptions; AlertAlert "Error" "Failed to pick image"]).
Proof. intros H. run_handler. rewrite H. reflexivity. Qed.

Lemma handleUploadImage_canceled (env : Env) (s : HomeState) (r : ImagePickerResult) :
  launchImageLibraryAsync env uploadOptions = Js.Resolved r ->
  canceled r = true ->
  handleUploadImage env s = (Js.Normal tt, s, [CallLaunchImageLibrary uploadOptions]).
Proof. intros H Hc. run_handler. rewrite H. cbn. rewrite Hc. reflexivity. Qed.

Lemma handleUploadImage_picked (env : Env) (s : HomeState) (r : ImagePickerResult)
    (a : ImagePickerAsset) (rest : list ImagePickerAsset) :
  launchImageLibraryAsync env uploadOptions = Js.Resolved r ->
  canceled r = false ->
  assets r = Some (a :: rest) ->
  handleUploadImage env s =
  (Js.Normal tt, setCapturedImage (Some (asset_uri a)) s,
   [CallLaunchImageLibrary uploadOptions]).
Proof.
  intros H Hc Ha. run_handler. rewrite H. cbn. rewrite Hc, Ha. reflexivity.
Qed.

(** A result that is not canceled but carries no asset makes the property
    read throw inside the [try]. *)
Lemma handleUploadImage_no_asset (env : Env) (s : HomeState) (r : ImagePickerResult) :
  launchImageLibraryAsync env uploadOptions = Js.Resolved r ->
  canceled r = false ->
  assets r = None \/ assets r = Some [] ->
  handleUploadImage env s =
  (Js.Normal tt, s,
   [CallLaunchImageLibrary uploadOptions; AlertAlert "Error" "Failed to pick image"]).
Proof.
  intros H Hc [Ha|Ha]; run_handler; rewrite H; cbn; rewrite Hc, Ha; reflexivity.
Qed.

(** The picker is the first thing the upload handler reaches for, whatever
    it answers. *)
Lemma handleUploadImage_launches (env : Env) (s : HomeState) :
  exists rest,
    trace_of (handleUploadImage env s) = CallLaunchImageLibrary uploadOptions :: rest.
Proof.
  run_handler.
  destruct (launchImageLibraryAsync env uploadOptions) as [r|e]; cbn.
  - destruct (canceled r); cbn; [eauto|].
    destruct (assets r) as [[|a l]|]; cbn; eauto.
  - eauto.
Qed.

Lemma handleCapturePhoto_web (env : Env) (cameraRef : option CameraView) (s : HomeState) :
  handleCapturePhoto web env cameraRef s =
  (Js.Normal tt, s,
   [AlertAlert "Camera Not Available" "Camera is only available on mobile devices."]).
Proof. reflexivity. Qed.

Lemma handleCapturePhoto_no_ref (os : PlatformOS) (env : Env) (s : HomeState) :
  isWeb os = false ->
  handleCapturePhoto os env None s = (Js.Normal tt, s, []).
Proof. unfold isWeb. intros H. run_handler. rewrite H. reflexivity. Qed.

Lemma handleCapturePhoto_rejected (os : PlatformOS) (env : Env) (camera : CameraView)
    (s : HomeState) (e : Js.Error) :
  isWeb os = false ->
  takePictureAsync env camera = Js.Rejected e ->
  handleCapturePhoto os env (Some camera) s =
  (Js.Normal tt, s,
   [CallTakePicture camera; AlertAlert "Error" "Failed to capture photo"]).
Proof. unfold isWeb. intros H Ht. run_handler. rewrite H, Ht. reflexivity. Qed.

Lemma handleCapturePhoto_captured (os : PlatformOS) (env : Env) (camera : CameraView)
    (s : HomeState) (p : CameraCapturedPicture) :
  isWeb os = false ->
  takePictureAsync env camera = Js.Resolved (Some p) ->
  handleCapturePhoto os env (Some camera) s =
  (Js.Normal tt, setCapturedImage (Some (photo_uri p)) s, [CallTakePicture camera]).
Proof. unfold isWeb. intros H Ht. run_handler. rewrite H, Ht. reflexivity. Qed.

Lemma handleCapturePhoto_no_photo (os : PlatformOS) (env : Env) (camera : CameraView)
    (s : HomeState) :
  isWeb os = false ->
  takePictureAsync env camera = Js.Resolved None ->
  handleCapturePhoto os env (Some camera) s =
  (Js.Normal tt, s, [CallTakePicture camera]).
Proof. unfold isWeb. intros H Ht. run_handler. rewrite H, Ht. reflexivity. Qed.

(** A tap on a handler whose touchable is absent from the tree does nothing. *)
Lemma press_absent (os : PlatformOS) (env : Env) (cameraRef : option CameraView)
    (h : Handler) (s : HomeState) :
  existsb (Handler_eqb h) (pressable (render os s)) = false ->
  press os env cameraRef h s = (Js.Normal tt, s, []).
Proof. intros H. unfold press. rewrite H. reflexivity. Qed.

Lemma press_present (os : PlatformOS) (env : Env) (cameraRef : option CameraView)
    (h : Handler) (s : HomeState) :
  existsb (Handler_eqb h) (pressable (render os s)) = true ->
  press os env cameraRef h s = handler os env cameraRef h s.
Proof. intros H. unfold press. rewrite H. reflexivity. Qed.

(** Where the camera-reverse button is. *)
Lemma reverse_button_present (os : PlatformOS) (s : HomeState) :
  existsb (Handler_eqb ToggleFacing) (pressable (render os s)) =
  cameraViewRendered (render os s).
Proof. render_cases os s; reflexivity. Qed.

(** Where the retake and analyze buttons are. *)
Lemma bottom_buttons_present (os : PlatformOS) (s : HomeState) (h : Handler) :
  h = Retake \/ h = Analyze ->
  existsb (Handler_eqb h) (pressable (render os s)) =
  bottomActionRendered (render os s).
Proof. intros [->| ->]; render_cases os s; reflexivity. Qed.

(** ** C3: failures of the platform calls *)

(** C3: whenever the platform call of the gallery-pick action or of the
    capture action fails (its promise is rejected), the handler catches the
    failure, completes normally and surfaces one notice through
    [Alert.alert]; the hook state it leaves is the state it found, so
    [capturedImage], [facing] and the permission status are unchanged and a
    flow that was idle stays idle. *)
Theorem platform_failure_is_caught
    (os : PlatformOS) (env : Env) (s : HomeState) (e : Js.Error) :
  (launchImageLibraryAsync env uploadOptions = Js.Rejected e ->
   let r := handleUploadImage env s in
   r = (Js.Normal tt, s,
        [CallLaunchImageLibrary uploadOptions;
         AlertAlert "Error" "Failed to pick image"]) /\
   capturedImage (state_of r) = capturedImage s /\
   facing (state_of r) = facing s /\
   permissionStatus (state_of r) = permissionStatus s /\
   (Idle s -> Idle (state_of r))) /\
  (forall camera,
     isWeb os = false ->
     takePictureAsync env camera = Js.Rejected e ->
     let r := handleCapturePhoto os env (Some camera) s in
     r = (Js.Normal tt, s,
          [CallTakePicture camera; AlertAlert "Error" "Failed to capture photo"]) /\
     capturedImage (state_of r) = capturedImage s /\
     facing (state_of r) = facing s /\
     permissionStatus (state_of r) = permissionStatus s /\
     (Idle s -> Idle (state_of r))).
Proof.
  split.
  - intros H. cbv zeta. rewrite (handleUploadImage_rejected env s e H).
    cbn. repeat split; auto.
  - intros camera Hw H. cbv zeta.
    rewrite (handleCapturePhoto_rejected os env camera s e Hw H).
    cbn. repeat split; auto.
Qed.

Lemma platform_failure_is_caught_failing :
  handleUploadImage Sample.failing Sample.live =
  (Js.Normal tt, Sample.live,
   [CallLaunchImageLibrary uploadOptions; AlertAlert "Error" "Failed to pick image"]) /\
  handleCapturePhoto ios Sample.failing (Some Sample.camera0) Sample.live =
  (Js.Normal tt, Sample.live,
   [CallTakePicture Sample.camera0; AlertAlert "Error" "Failed to capture photo"]).
Proof.
  destruct (platform_failure_is_caught ios Sample.failing Sample.live Sample.boom)
    as [Hpick Hcapture].
  split.
  - apply Hpick. reflexivity.
  - apply (Hcapture Sample.camera0); reflexivity.
Defined.

(** ** C4: the upload action *)

(** C4: from an idle state the upload action calls the gallery picker
    first, with options whose [allowsEditing] is [true], whose [aspect] is
    [[4, 3]] and whose [quality] is [1]; when the picker's result is
    canceled the handler leaves the state as it was, [capturedImage] still
    [null]; when the result is not canceled, [capturedImage] becomes the
    [uri] of the first selected asset and the flow is previewing. *)
Theorem upload_from_idle (env : Env) (s : HomeState) :
  Idle s ->
  (exists options rest,
     trace_of (handleUploadImage env s) = CallLaunchImageLibrary options :: rest /\
     allowsEditing options = true /\
     aspect options = (4, 3)%Z /\
     quality options = 1%Q) /\
  (forall r,
     launchImageLibraryAsync env uploadOptions = Js.Resolved r ->
     canceled r = true ->
     handleUploadImage env s =
       (Js.Normal tt, s, [CallLaunchImageLibrary uploadOptions]) /\
     Idle (state_of (handleUploadImage env s)) /\
     capturedImage (state_of (handleUploadImage env s)) = None) /\
  (forall r a rest,
     launchImageLibraryAsync env uploadOptions = Js.Resolved r ->
     canceled r = false ->
     assets r = Some (a :: rest) ->
     completion_of (handleUploadImage env s) = Js.Normal tt /\
     state_of (handleUploadImage env s) = setCapturedImage (Some (asset_uri a)) s /\
     capturedImage (state_of (handleUploadImage env s)) = Some (asset_uri a) /\
     Previewing (state_of (handleUploadImage env s))).
Proof.
  intros Hidle. split; [|split].
  - destruct (handleUploadImage_launches env s) as [rest Hrest].
    exists uploadOptions, rest. repeat split. exact Hrest.
  - intros r Hr Hc.
    rewrite (handleUploadImage_canceled env s r Hr Hc).
    repeat split; exact Hidle.
  - intros r a rest Hr Hc Ha.
    rewrite (handleUploadImage_picked env s r a rest Hr Hc Ha).
    repeat split. cbn. discriminate.
Qed.

Lemma upload_from_idle_dismissed_then_picked :
  state_of (handleUploadImage Sample.dismissing Sample.live) = Sample.live /\
  capturedImage (state_of (handleUploadImage Sample.working Sample.live)) =
  Some Sample.photo1.
Proof.
  split.
  - destruct (upload_from_idle Sample.dismissing Sample.live eq_refl)
      as (_ & Hcancel & _).
    destruct (Hcancel _ eq_refl eq_refl) as (Heq & _).
    rewrite Heq. reflexivity.
  - destruct (upload_from_idle Sample.working Sample.live eq_refl)
      as (_ & _ & Hpick).
    destruct (Hpick _ _ _ eq_refl eq_refl eq_refl) as (_ & _ & Huri & _).
    exact Huri.
Defined.

(** ** C5: capture, then retake *)

(** C5: from every idle state, a successful capture followed by retake
    gives back exactly the state before the capture: [capturedImage] is
    [null] again, [facing] and [permission] are as they were. *)
Theorem capture_then_retake
    (os : PlatformOS) (env : Env) (camera : CameraView)
    (p : CameraCapturedPicture) (s : HomeState) :
  Idle s ->
  isWeb os = false ->
  takePictureAsync env camera = Js.Resolved (Some p) ->
  let captured := handleCapturePhoto os env (Some camera) s in
  let retaken := retake (state_of captured) in
  completion_of captured = Js.Normal tt /\
  capturedImage (state_of captured) = Some (photo_uri p) /\
  completion_of retaken = Js.Normal tt /\
  state_of retaken = s /\
  Idle (state_of retaken) /\
  facing (state_of retaken) = facing s /\
  permissionStatus (state_of retaken) = permissionStatus s.
Proof.
  intros Hidle Hw Ht. cbv zeta.
  rewrite (handleCapturePhoto_captured os env camera s p Hw Ht).
  unfold retake, update, state_of, completion_of. cbn.
  unfold Idle in Hidle.
  assert (Hback : setCapturedImage None (setCapturedImage (Some (photo_uri p)) s) = s).
  { rewrite setCapturedImage_twice, <- Hidle. apply setCapturedImage_same. }
  rewrite Hback. repeat split; auto.
Qed.

Lemma capture_then_retake_live :
  state_of (retake (state_of
    (handleCapturePhoto android Sample.working (Some Sample.camera0) Sample.live)))
  = Sample.live.
Proof.
  destruct (capture_then_retake android Sample.working Sample.camera0
              {| photo_uri := Sample.photo1 |} Sample.live
              eq_refl eq_refl eq_refl) as (_ & _ & _ & Hback & _).
  exact Hback.
Defined.

(** ** C6: retake while idle *)

(** C6: when [capturedImage] is already [null], the retake action completes
    normally, does nothing to the outside and leaves the whole state as it
    was; the same holds for a tap aimed at the retake button, which is not
    in the tree then. *)
Theorem retake_when_idle
    (os : PlatformOS) (env : Env) (cameraRef : option CameraView) (s : HomeState) :
  Idle s ->
  retake s = (Js.Normal tt, s, []) /\
  press os env cameraRef Retake s = (Js.Normal tt, s, []).
Proof.
  intros Hidle. unfold Idle in Hidle. split.
  - unfold retake, update. rewrite <- Hidle, setCapturedImage_same. reflexivity.
  - apply press_absent.
    rewrite (bottom_buttons_present os s Retake) by (left; reflexivity).
    rewrite bottomActionRendered_spec, Hidle. cbn. apply andb_false_r.
Qed.

Lemma retake_when_idle_live :
  retake Sample.live = (Js.Normal tt, Sample.live, []).
Proof.
  apply (retake_when_idle ios Sample.working (Some Sample.camera0) Sample.live).
  reflexivity.
Defined.

(** ** C7: the camera-reverse button *)

(** C7: for every state whose image reference, when one is held, is not
    the empty string: the toggle action replaces [facing] by the other of
    back and front and touches nothing else, in an idle state as in any
    other, so two consecutive toggles restore the original state; in an
    idle state showing the live view a tap on the button does just that;
    and a tap has no effect on a platform without camera support, nor once
    the flow is previewing. *)
Theorem toggle_facing
    (os : PlatformOS) (env : Env) (cameraRef : option CameraView) (s : HomeState) :
  capturedImage s <> Some EmptyString ->
  toggleFacing s = (Js.Normal tt, setFacing flip s, []) /\
  facing (setFacing flip s) <> facing s /\
  state_of (toggleFacing (state_of (toggleFacing s))) = s /\
  (Idle s -> Idle (state_of (toggleFacing s))) /\
  (Idle s -> cameraViewRendered (render os s) = true ->
   press os env cameraRef ToggleFacing s = (Js.Normal tt, setFacing flip s, []) /\
   state_of (press os env cameraRef ToggleFacing (setFacing flip s)) = s) /\
  (isWeb os = true ->
   press os env cameraRef ToggleFacing s = (Js.Normal tt, s, [])) /\
  (Previewing s ->
   press os env cameraRef ToggleFacing s = (Js.Normal tt, s, [])).
Proof.
  intros Hvalid.
  split; [reflexivity|].
  split; [apply flip_changes|].
  split; [apply setFacing_flip_twice|].
  split; [intros Hidle; exact Hidle|].
  split; [|split].
  - intros Hidle Hcam. apply camera_view_only_live in Hcam.
    destruct Hcam as (Hw & Hg & _).
    assert (Hlive : forall t, capturedImage t = capturedImage s ->
                              permission t = permission s ->
                              cameraViewRendered (render os t) = true).
    { intros t Hc Hp. apply camera_live.
      - rewrite Hc. left. exact Hidle.
      - exact Hw.
      - unfold permissionStatus in *. rewrite Hp. exact Hg. }
    split.
    + rewrite press_present; [reflexivity|].
      rewrite reverse_button_present. apply Hlive; reflexivity.
    + rewrite press_present.
      * cbn. apply setFacing_flip_twice.
      * rewrite reverse_button_present. apply Hlive; reflexivity.
  - intros Hw. apply press_absent.
    rewrite reverse_button_present, cameraViewRendered_spec, Hw.
    cbn. rewrite andb_false_r. reflexivity.
  - intros Hprev. apply press_absent. rewrite reverse_button_present.
    destruct (cameraViewRendered (render os s)) eqn:Hcam; [|reflexivity].
    apply camera_view_only_live in Hcam.
    destruct Hcam as (_ & _ & [Hnone|Hempty]); contradiction.
Qed.

Lemma toggle_facing_back_front_back :
  facing (state_of (press ios Sample.working (Some Sample.camera0) ToggleFacing
                      Sample.live)) = front /\
  state_of (press ios Sample.working (Some Sample.camera0) ToggleFacing
              (setFacing flip Sample.live)) = Sample.live /\
  press web Sample.working None ToggleFacing Sample.live =
    (Js.Normal tt, Sample.live, []) /\
  press ios Sample.working (Some Sample.camera0) ToggleFacing Sample.holding =
    (Js.Normal tt, Sample.holding, []).
Proof.
  assert (Hlive : capturedImage Sample.live <> Some EmptyString) by discriminate.
  assert (Hhold : capturedImage Sample.holding <> Some EmptyString) by discriminate.
  split; [|split; [|split]].
  - destruct (toggle_facing ios Sample.working (Some Sample.camera0) Sample.live Hlive)
      as (_ & _ & _ & _ & Hidle & _).
    destruct (Hidle eq_refl eq_refl) as [Hpress _].
    rewrite Hpress. reflexivity.
  - destruct (toggle_facing ios Sample.working (Some Sample.camera0) Sample.live Hlive)
      as (_ & _ & _ & _ & Hidle & _).
    destruct (Hidle eq_refl eq_refl) as [_ Hback].
    exact Hback.
  - destruct (toggle_facing web Sample.working None Sample.live Hlive)
      as (_ & _ & _ & _ & _ & Hweb & _).
    apply Hweb. reflexivity.
  - destruct (toggle_facing ios Sample.working (Some Sample.camera0) Sample.holding Hhold)
      as (_ & _ & _ & _ & _ & _ & Hprev).
    apply Hprev. cbn. discriminate.
Defined.

(** With the empty string as the stored reference the live view and its
    controls row are rendered, so a tap on the camera-reverse button flips
    [facing] there: the one state the hypothesis on the reference leaves
    aside. *)
Lemma toggle_facing_has_effect_with_empty_reference :
  facing (state_of (press ios Sample.working (Some Sample.camera0) ToggleFacing
                      Sample.holdingEmpty)) = front.
Proof. reflexivity. Qed.

(** ** C9: the analyze action *)

(** C9: from a previewing state the analyze action only surfaces the
    notice: it completes normally, its whole trace is the one
    [Alert.alert] (no platform call is made, so nothing is inferred or
    stored), and the state it leaves is the state it found, previewing with
    the same image reference, [facing] and permission status; a tap on the
    analyze button does the same. *)
Theorem analyze_only_notifies
    (os : PlatformOS) (env : Env) (cameraRef : option CameraView) (s : HomeState) :
  Previewing s ->
  let r := analyze s in
  r = (Js.Normal tt, s, [AlertAlert "Analyzing" "Processing image..."]) /\
  Previewing (state_of r) /\
  capturedImage (state_of r) = capturedImage s /\
  facing (state_of r) = facing s /\
  permissionStatus (state_of r) = permissionStatus s /\
  state_of (press os env cameraRef Analyze s) = s /\
  (bottomActionRendered (render os s) = true ->
   press os env cameraRef Analyze s = r).
Proof.
  intros Hprev. cbv zeta. unfold analyze, alert, emit. cbn.
  repeat split; auto.
  - unfold press. destruct (existsb _ _); reflexivity.
  - intros Hb. rewrite press_present; [reflexivity|].
    rewrite (bottom_buttons_present os s Analyze) by (right; reflexivity).
    exact Hb.
Qed.

Lemma analyze_only_notifies_holding :
  analyze Sample.holding =
  (Js.Normal tt, Sample.holding, [AlertAlert "Analyzing" "Processing image..."]) /\
  press ios Sample.working (Some Sample.camera0) Analyze Sample.holding =
  analyze Sample.holding.
Proof.
  assert (Hprev : Previewing Sample.holding) by (cbn; discriminate).
  destruct (analyze_only_notifies ios Sample.working (Some Sample.camera0)
              Sample.holding Hprev) as (Heq & _ & _ & _ & _ & _ & Hpress).
  split; [exact Heq | apply Hpress; reflexivity].
Defined.

(** ** C10: capture without a mounted camera *)

(** C10: on a camera platform, when [cameraRef.current] is [null] the
    capture handler completes normally without calling the platform,
    without changing the state and without any notice; whereas when the
    reference is set and [takePictureAsync] fails, the handler surfaces the
    notice "Failed to capture photo". *)
Theorem capture_without_camera_ref
    (os : PlatformOS) (env : Env) (s : HomeState) :
  isWeb os = false ->
  handleCapturePhoto os env None s = (Js.Normal tt, s, []) /\
  (forall camera e,
     takePictureAsync env camera = Js.Rejected e ->
     handleCapturePhoto os env (Some camera) s =
     (Js.Normal tt, s,
      [CallTakePicture camera; AlertAlert "Error" "Failed to capture photo"])).
Proof.
  intros Hw. split.
  - apply handleCapturePhoto_no_ref. exact Hw.
  - intros camera e Ht. exact (handleCapturePhoto_rejected os env camera s e Hw Ht).
Qed.

Lemma capture_without_camera_ref_android :
  handleCapturePhoto android Sample.failing None Sample.live =
  (Js.Normal tt, Sample.live, []) /\
  handleCapturePhoto android Sample.failing (Some Sample.camera0) Sample.live =
  (Js.Normal tt, Sample.live,
   [CallTakePicture Sample.camera0; AlertAlert "Error" "Failed to capture photo"]).
Proof.
  destruct (capture_without_camera_ref android Sample.failing Sample.live eq_refl)
    as [Hsilent Hnotice].
  split; [exact Hsilent | apply (Hnotice Sample.camera0 Sample.boom); reflexivity].
Defined.

(** * Further properties of the component *)

(** ** The handlers under every platform answer *)

(** X1: the five handlers the component defines never end in a throw, whatever
    the platform answers: a rejection inside [handleUploadImage] or
    [handleCapturePhoto] is caught, and the other three call nothing that
    can reject. *)
Theorem component_handlers_complete
    (os : PlatformOS) (env : Env) (cameraRef : option CameraView)
    (h : Handler) (s : HomeState) :
  h <> RequestPermission ->
  completion_of (handler os env cameraRef h s) = Js.Normal tt.
Proof.
  intros Hh. destruct h; try (contradiction Hh; reflexivity); cbn [handler].
  - run_handler.
    destruct (launchImageLibraryAsync env uploadOptions) as [r|e]; cbn;
      [|reflexivity].
    destruct (canceled r); cbn; [reflexivity|].
    destruct (assets r) as [[|a l]|]; reflexivity.
  - run_handler. destruct (PlatformOS_eqb os web); [reflexivity|].
    destruct cameraRef as [camera|]; [|reflexivity]. cbn.
    destruct (takePictureAsync env camera) as [[p|]|e]; reflexivity.
  - reflexivity.
  - reflexivity.
  - reflexivity.
Qed.

Lemma component_handlers_complete_failing :
  completion_of (handler ios Sample.failing (Some Sample.camera0)
                   HandleCapturePhoto Sample.live) = Js.Normal tt.
Proof.
  apply (component_handlers_complete ios Sample.failing (Some Sample.camera0)
           HandleCapturePhoto Sample.live).
  discriminate.
Defined.

(** X2: the upload handler shows "Failed to pick image" exactly when the picker
    call is rejected or when a result that is not canceled carries no first
    asset ([assets] null or empty, so that [result.assets[0].uri] throws
    inside the [try]); whenever it shows the notice it leaves the state as
    it found it. *)
Theorem upload_notice_iff (env : Env) (s : HomeState) :
  (In (AlertAlert "Error" "Failed to pick image")
      (trace_of (handleUploadImage env s)) <->
   (exists e, launchImageLibraryAsync env uploadOptions = Js.Rejected e) \/
   (exists r, launchImageLibraryAsync env uploadOptions = Js.Resolved r /\
              canceled r = false /\
              (assets r = None \/ assets r = Some []))) /\
  (In (AlertAlert "Error" "Failed to pick image")
      (trace_of (handleUploadImage env s)) ->
   state_of (handleUploadImage env s) = s).
Proof.
  run_handler.
  destruct (launchImageLibraryAsync env uploadOptions) as [r|e] eqn:Hl; cbn.
  - destruct (canceled r) eqn:Hc; cbn.
    + split; [split|]; intros H; break.
    + destruct (assets r) as [[|a l]|] eqn:Ha; cbn.
      * split; [split|]; intros H; try reflexivity; [|auto].
        right. exists r. auto.
      * split; [split|]; intros H; break.
      * split; [split|]; intros H; try reflexivity; [|auto].
        right. exists r. auto.
  - split; [split|]; intros H; try reflexivity; [|auto].
    left. exists e. reflexivity.
Qed.

Lemma upload_notice_iff_failing :
  state_of (handleUploadImage Sample.failing Sample.live) = Sample.live.
Proof.
  apply (upload_notice_iff Sample.failing Sample.live).
  cbn. right. left. reflexivity.
Defined.

(** X3: the capture handler, notice by notice: "Camera Not Available" is shown
    exactly on web, "Failed to capture photo" exactly when, off web, a
    camera is mounted and [takePictureAsync] is rejected; a camera that
    resolves without a picture is met with silence, the state unchanged
    ([if (photo)]); and [capturedImage] changes only to the [uri] of a
    picture the mounted camera resolved with. *)
Theorem capture_outcomes
    (os : PlatformOS) (env : Env) (cameraRef : option CameraView) (s : HomeState) :
  let out := handleCapturePhoto os env cameraRef s in
  (In (AlertAlert "Camera Not Available"
         "Camera is only available on mobile devices.") (trace_of out) <->
   isWeb os = true) /\
  (In (AlertAlert "Error" "Failed to capture photo") (trace_of out) <->
   isWeb os = false /\
   exists camera e, cameraRef = Some camera /\
                    takePictureAsync env camera = Js.Rejected e) /\
  (forall camera,
     isWeb os = false -> cameraRef = Some camera ->
     takePictureAsync env camera = Js.Resolved None ->
     out = (Js.Normal tt, s, [CallTakePicture camera])) /\
  (state_of out <> s ->
   exists camera p,
     isWeb os = false /\ cameraRef = Some camera /\
     takePictureAsync env camera = Js.Resolved (Some p) /\
     state_of out = setCapturedImage (Some (photo_uri p)) s).
Proof.
  cbv zeta. unfold isWeb. run_handler.
  destruct (PlatformOS_eqb os web) eqn:Hw; cbn.
  - repeat split; intros; break; auto.
  - destruct cameraRef as [camera|]; cbn.
    + destruct (takePictureAsync env camera) as [[p|]|e] eqn:Ht; cbn;
        repeat split; intros; break; auto.
      * exists camera, p. auto.
      * exists camera, e. auto.
    + repeat split; intros; break; auto.
Qed.

Lemma capture_outcomes_no_picture :
  handleCapturePhoto ios Sample.dismissing (Some Sample.camera0) Sample.live =
  (Js.Normal tt, Sample.live, [CallTakePicture Sample.camera0]).
Proof.
  destruct (capture_outcomes ios Sample.dismissing (Some Sample.camera0) Sample.live)
    as (_ & _ & Hsilent & _).
  apply (Hsilent Sample.camera0); reflexivity.
Defined.

(** X4: upload, then retake: from an idle state, picking an image and tapping
    retake gives back exactly the state before the pick; this is the
    gallery twin of capture-then-retake and holds on web as well. *)
Theorem upload_then_retake
    (env : Env) (r : ImagePickerResult) (a : ImagePickerAsset)
    (rest : list ImagePickerAsset) (s : HomeState) :
  Idle s ->
  launchImageLibraryAsync env uploadOptions = Js.Resolved r ->
  canceled r = false ->
  assets r = Some (a :: rest) ->
  capturedImage (state_of (handleUploadImage env s)) = Some (asset_uri a) /\
  retake (state_of (handleUploadImage env s)) = (Js.Normal tt, s, []).
Proof.
  intros Hidle Hr Hc Ha.
  rewrite (handleUploadImage_picked env s r a rest Hr Hc Ha).
  split; [reflexivity|].
  unfold retake, update, state_of. cbn.
  rewrite setCapturedImage_twice. unfold Idle in Hidle.
  rewrite <- Hidle, setCapturedImage_same. reflexivity.
Qed.

Lemma upload_then_retake_working :
  retake (state_of (handleUploadImage Sample.working initialState)) =
  (Js.Normal tt, initialState, []).
Proof.
  destruct (upload_then_retake Sample.working
              {| canceled := false;
                 assets := Some [ {| asset_uri := Sample.photo1 |} ] |}
              {| asset_uri := Sample.photo1 |} [] initialState
              eq_refl eq_refl eq_refl eq_refl) as [_ Hback].
  exact Hback.
Defined.

(** ** What a tap can do *)

(** Where each handler's touchable is. *)
Lemma pressable_spec (os : PlatformOS) (s : HomeState) (h : Handler) :
  existsb (Handler_eqb h) (pressable (render os s)) =
  match h with
  | HandleUploadImage =>
      cameraViewRendered (render os s) || uploadFallbackRendered (render os s)
  | HandleCapturePhoto | ToggleFacing => cameraViewRendered (render os s)
  | Retake | Analyze => bottomActionRendered (render os s)
  | RequestPermission =>
      negb (isWeb os) &&
      match permissionStatus s with Denied => true | _ => false end
  end.
Proof. destruct h; render_cases os s; reflexivity. Qed.

Lemma upload_fallback_only_web (os : PlatformOS) (s : HomeState) :
  uploadFallbackRendered (render os s) = true ->
  isWeb os = true /\
  (capturedImage s = None \/ capturedImage s = Some EmptyString).
Proof.
  rewrite uploadFallbackRendered_spec, <- falsy_iff.
  destruct (isWeb os), (Js.truthy (capturedImage s));
    cbn; intros H; try discriminate H; auto.
Qed.

(** The effects each handler can have. *)
Lemma upload_trace (env : Env) (s : HomeState) (e : Effect) :
  In e (trace_of (handleUploadImage env s)) ->
  e = CallLaunchImageLibrary uploadOptions \/
  e = AlertAlert "Error" "Failed to pick image".
Proof.
  run_handler.
  destruct (launchImageLibraryAsync env uploadOptions) as [r|err]; cbn.
  - destruct (canceled r); cbn; [intros H; break; auto|].
    destruct (assets r) as [[|a l]|]; cbn; intros H; break; auto.
  - intros H; break; auto.
Qed.

Lemma capture_trace (os : PlatformOS) (env : Env) (cameraRef : option CameraView)
    (s : HomeState) (e : Effect) :
  In e (trace_of (handleCapturePhoto os env cameraRef s)) ->
  (isWeb os = true /\
   e = AlertAlert "Camera Not Available"
         "Camera is only available on mobile devices.") \/
  (isWeb os = false /\
   exists camera, cameraRef = Some camera /\
     (e = CallTakePicture camera \/
      e = AlertAlert "Error" "Failed to capture photo")).
Proof.
  unfold isWeb. run_handler.
  destruct (PlatformOS_eqb os web); cbn.
  - intros H; break; auto.
  - destruct cameraRef as [camera|]; cbn; [|intros []].
    destruct (takePictureAsync env camera) as [[p|]|err]; cbn;
      intros H; break; right; split; try reflexivity; exists camera; auto.
Qed.

Lemma request_trace (env : Env) (s : HomeState) (e : Effect) :
  In e (trace_of (requestPermission env s)) -> e = CallRequestPermission.
Proof.
  run_handler. destruct (requestPermissionAsync env); cbn; intros H; break; auto.
Qed.

(** X5: the camera is asked for a picture only by the shutter of the live
    view: a tap leads to [takePictureAsync] only if it is on the capture
    button, the platform is not web, the permission is granted, no image is
    shown, and the camera asked is the mounted one. *)
Theorem camera_called_only_from_live_view
    (os : PlatformOS) (env : Env) (cameraRef : option CameraView)
    (h : Handler) (s : HomeState) (camera : CameraView) :
  In (CallTakePicture camera) (trace_of (press os env cameraRef h s)) ->
  h = HandleCapturePhoto /\
  cameraRef = Some camera /\
  isWeb os = false /\
  permissionStatus s = Granted /\
  (capturedImage s = None \/ capturedImage s = Some EmptyString).
Proof.
  unfold press. destruct (existsb _ _) eqn:Hp; [|intros []].
  rewrite pressable_spec in Hp.
  destruct h; cbn [handler]; intros H.
  - apply upload_trace in H. break.
  - apply camera_view_only_live in Hp. apply capture_trace in H. break;
      repeat split; auto; congruence.
  - destruct H.
  - destruct H.
  - cbn in H. break.
  - apply request_trace in H. break.
Qed.

Lemma camera_called_only_from_live_view_working :
  permissionStatus Sample.live = Granted.
Proof.
  apply (camera_called_only_from_live_view ios Sample.working
           (Some Sample.camera0) HandleCapturePhoto Sample.live Sample.camera0).
  cbn. left. reflexivity.
Defined.

(** X6: the gallery picker is launched only by an upload button, always with
    the options of [handleUploadImage], and only when no image is shown and
    either the platform is web or the camera permission is granted: on a
    camera platform without the permission the gallery is out of reach. *)
Theorem picker_launched_only_past_the_gate
    (os : PlatformOS) (env : Env) (cameraRef : option CameraView)
    (h : Handler) (s : HomeState) (options : ImagePickerOptions) :
  In (CallLaunchImageLibrary options) (trace_of (press os env cameraRef h s)) ->
  h = HandleUploadImage /\
  options = uploadOptions /\
  (capturedImage s = None \/ capturedImage s = Some EmptyString) /\
  (isWeb os = true \/ permissionStatus s = Granted).
Proof.
  unfold press. destruct (existsb _ _) eqn:Hp; [|intros []].
  rewrite pressable_spec in Hp.
  destruct h; cbn [handler]; intros H.
  - apply upload_trace in H. apply orb_true_iff in Hp.
    destruct Hp as [Hp|Hp].
    + apply camera_view_only_live in Hp. break; repeat split; auto; congruence.
    + apply upload_fallback_only_web in Hp. break; repeat split; auto; congruence.
  - apply capture_trace in H. break.
  - destruct H.
  - destruct H.
  - cbn in H. break.
  - apply request_trace in H. break.
Qed.

Lemma picker_launched_only_past_the_gate_web :
  isWeb web = true \/ permissionStatus initialState = Granted.
Proof.
  apply (picker_launched_only_past_the_gate web Sample.dismissing None
           HandleUploadImage initialState uploadOptions).
  cbn. left. reflexivity.
Defined.

(** X7: behind the gate nothing but the permission request is reachable: on a
    camera platform whose permission is not granted, every tap other than
    on "Grant Permission" does nothing, and while the permission is still
    unresolved (the loading view) every tap does nothing. *)
Theorem gate_blocks_taps
    (os : PlatformOS) (env : Env) (cameraRef : option CameraView)
    (h : Handler) (s : HomeState) :
  isWeb os = false ->
  permissionStatus s <> Granted ->
  h <> RequestPermission \/ permissionStatus s = Unknown ->
  press os env cameraRef h s = (Js.Normal tt, s, []).
Proof.
  intros Hw Hg Hh. apply press_absent. rewrite pressable_spec.
  assert (Hcam : cameraViewRendered (render os s) = false).
  { destruct (cameraViewRendered (render os s)) eqn:Hc; [|reflexivity].
    apply camera_view_only_live in Hc. break. }
  assert (Hfb : uploadFallbackRendered (render os s) = false).
  { rewrite uploadFallbackRendered_spec, Hw. reflexivity. }
  assert (Hb : bottomActionRendered (render os s) = false).
  { rewrite bottomActionRendered_spec, gateRendered_spec, Hw.
    destruct (permissionStatus s); break; reflexivity. }
  destruct h; rewrite ?Hcam, ?Hfb, ?Hb; try reflexivity.
  destruct Hh as [Hh|Hh]; [break|]. rewrite Hh, Hw. reflexivity.
Qed.

Lemma gate_blocks_taps_loading :
  press ios Sample.working (Some Sample.camera0) HandleUploadImage initialState =
  (Js.Normal tt, initialState, []).
Proof.
  apply (gate_blocks_taps ios Sample.working (Some Sample.camera0)
           HandleUploadImage initialState).
  - reflexivity.
  - discriminate.
  - left. discriminate.
Defined.

(** X8: while the preview is shown the image is only dropped by retake: every
    other tap leaves the whole state as it is, and a tap on retake sets
    [capturedImage] to [null] and nothing else. *)
Theorem preview_dropped_only_by_retake
    (os : PlatformOS) (env : Env) (cameraRef : option CameraView)
    (h : Handler) (s : HomeState) (uri : string) :
  previewRendered (render os s) = Some uri ->
  capturedImage s = Some uri /\
  (h <> Retake -> state_of (press os env cameraRef h s) = s) /\
  press os env cameraRef Retake s = (Js.Normal tt, setCapturedImage None s, []).
Proof.
  intros Hprev.
  assert (Hcases :
    capturedImage s = Some uri /\
    cameraViewRendered (render os s) = false /\
    uploadFallbackRendered (render os s) = false /\
    bottomActionRendered (render os s) = true /\
    negb (isWeb os) &&
      match permissionStatus s with Denied => true | _ => false end = false).
  { unfold permissionStatus. render_cases os s; break; auto. }
  destruct Hcases as (Hc & Hcam & Hfb & Hb & Hreq).
  split; [exact Hc|]. split.
  - intros Hh. unfold press. rewrite pressable_spec.
    destruct h; rewrite ?Hcam, ?Hfb, ?Hb, ?Hreq; cbn; try reflexivity.
    break.
  - rewrite press_present; [reflexivity|].
    rewrite pressable_spec. exact Hb.
Qed.

Lemma preview_dropped_only_by_retake_holding :
  state_of (press ios Sample.blank (Some Sample.camera0) HandleUploadImage
              Sample.holding) = Sample.holding.
Proof.
  destruct (preview_dropped_only_by_retake ios Sample.blank (Some Sample.camera0)
              HandleUploadImage Sample.holding Sample.photo1 eq_refl)
    as (_ & Hkeep & _).
  apply Hkeep. discriminate.
Defined.

(** X9: the only rendered tree without any touchable bound to a handler is the
    loading view: from the permission view, the live view, the web
    placeholder and the preview the user can always go on. *)
Theorem only_loading_has_no_touchable (os : PlatformOS) (s : HomeState) :
  (pressable (render os s) = [] <-> render os s = LoadingContainer) /\
  (render os s = LoadingContainer <-> isWeb os = false /\ permission s = None).
Proof.
  render_cases os s; repeat split; intros; break; auto; try discriminate.
Qed.

Lemma only_loading_has_no_touchable_first_render :
  pressable (render android initialState) = [].
Proof.
  destruct (only_loading_has_no_touchable android initialState) as [Hnone Hload].
  apply Hnone. apply Hload. split; reflexivity.
Defined.

(** X10: the three conditions of the main view agree: the controls row is
    rendered exactly when the camera viewfinder is, the bottom-action row
    exactly when the preview is, and the preview shows the very reference
    [capturedImage] holds. *)
Theorem rows_follow_camera_container (os : PlatformOS) (s : HomeState) :
  controlsRendered (render os s) = cameraViewRendered (render os s) /\
  (bottomActionRendered (render os s) = true <->
   exists uri, previewRendered (render os s) = Some uri) /\
  (forall uri, previewRendered (render os s) = Some uri ->
               capturedImage s = Some uri /\ uri <> EmptyString).
Proof.
  render_cases os s; repeat split; intros; break; eauto; try discriminate.
Qed.

Lemma rows_follow_camera_container_holding :
  capturedImage Sample.holding = Some Sample.photo1 /\
  Sample.photo1 <> EmptyString.
Proof.
  destruct (rows_follow_camera_container web Sample.holding) as (_ & _ & Huri).
  apply Huri. reflexivity.
Defined.

(** X11: The "Camera Not Available" notice cannot be brought up by a tap: the
    capture button is not in the tree on web, and off web the handler does
    not take that branch; no effect of any tap is that notice. *)
Theorem camera_not_available_never_shown
    (os : PlatformOS) (env : Env) (cameraRef : option CameraView)
    (h : Handler) (s : HomeState) (e : Effect) :
  In e (trace_of (press os env cameraRef h s)) ->
  forall message, e <> AlertAlert "Camera Not Available" message.
Proof.
  unfold press. destruct (existsb _ _) eqn:Hp; [|intros []].
  rewrite pressable_spec in Hp.
  destruct h; cbn [handler]; intros H message.
  - apply upload_trace in H. break.
  - apply camera_view_only_live in Hp. apply capture_trace in H. break.
  - destruct H.
  - destruct H.
  - cbn in H. break.
  - apply request_trace in H. break.
Qed.

Lemma camera_not_available_never_shown_analyze :
  AlertAlert "Analyzing" "Processing image..." <>
  AlertAlert "Camera Not Available" "Camera is only available on mobile devices.".
Proof.
  apply (camera_not_available_never_shown ios Sample.working
           (Some Sample.camera0) Analyze Sample.holding).
  cbn. left. reflexivity.
Defined.

(** X12: one tap makes at most one platform call and shows at most one notice,
    and a tap that shows a notice leaves the state as it was. *)
Theorem tap_effects_bounded
    (os : PlatformOS) (env : Env) (cameraRef : option CameraView)
    (h : Handler) (s : HomeState) :
  let out := press os env cameraRef h s in
  (length (filter isPlatformCall (trace_of out)) <= 1)%nat /\
  (length (filter isNotice (trace_of out)) <= 1)%nat /\
  (existsb isNotice (trace_of out) = true -> state_of out = s).
Proof.
  cbv zeta. unfold press. destruct (existsb _ _); [|cbn; auto].
  destruct h; cbn [handler]; run_handler.
  - destruct (launchImageLibraryAsync env uploadOptions) as [r|e]; cbn; [|auto].
    destruct (canceled r); cbn; [auto|].
    destruct (assets r) as [[|a l]|]; cbn; auto.
    repeat split; auto. discriminate.
  - destruct (PlatformOS_eqb os web); cbn; [auto|].
    destruct cameraRef as [camera|]; cbn; [|auto].
    destruct (takePictureAsync env camera) as [[p|]|e]; cbn; auto.
    repeat split; auto. discriminate.
  - cbn. repeat split; auto. discriminate.
  - cbn. repeat split; auto. discriminate.
  - cbn. auto.
  - destruct (requestPermissionAsync env); cbn; repeat split; auto; discriminate.
Qed.

Lemma tap_effects_bounded_failing :
  state_of (press ios Sample.failing (Some Sample.camera0) HandleCapturePhoto
              Sample.live) = Sample.live.
Proof.
  destruct (tap_effects_bounded ios Sample.failing (Some Sample.camera0)
              HandleCapturePhoto Sample.live) as (_ & _ & Hkeep).
  apply Hkeep. reflexivity.
Defined.

(** ** What a run of taps can do *)

Lemma run_cons (os : PlatformOS) (e : Event) (rest : list Event) (s : HomeState) :
  run os (e :: rest) s =
  (fst (run os rest (state_of (press os (answers e) (mounted e) (tapped e) s))),
   (trace_of (press os (answers e) (mounted e) (tapped e) s) ++
    snd (run os rest (state_of (press os (answers e) (mounted e) (tapped e) s))))%list).
Proof.
  cbn [run]. destruct (run os rest _) as [s' t]. reflexivity.
Qed.

(** On web a tap can only launch the picker or show one of two notices. *)
Lemma web_press_trace (os : PlatformOS) (env : Env) (cameraRef : option CameraView)
    (h : Handler) (s : HomeState) (e : Effect) :
  isWeb os = true ->
  In e (trace_of (press os env cameraRef h s)) ->
  e = CallLaunchImageLibrary uploadOptions \/
  e = AlertAlert "Error" "Failed to pick image" \/
  e = AlertAlert "Analyzing" "Processing image...".
Proof.
  intros Hw. unfold press. destruct (existsb _ _) eqn:Hp; [|intros []].
  rewrite pressable_spec in Hp.
  destruct h; cbn [handler]; intros H.
  - apply upload_trace in H. break; auto.
  - apply camera_view_only_live in Hp. break.
  - destruct H.
  - destruct H.
  - cbn in H. break; auto.
  - rewrite Hw in Hp. discriminate Hp.
Qed.

(** X13: on a platform without camera support the component's own code
    never touches the camera: its mount effect does nothing, and no
    sequence of taps, under any platform answers and from any state,
    requests the camera permission or asks for a picture; all the taps
    ever do is launch the gallery picker with the options of
    [handleUploadImage] and show the "Failed to pick image" and
    "Processing image..." notices. *)
Theorem web_run_effects
    (os : PlatformOS) (first : Env) (es : list Event) (s : HomeState) :
  isWeb os = true ->
  onMount os first s = (Js.Normal tt, s, []) /\
  (forall e,
     In e (snd (run os es s)) ->
     e = CallLaunchImageLibrary uploadOptions \/
     e = AlertAlert "Error" "Failed to pick image" \/
     e = AlertAlert "Analyzing" "Processing image...").
Proof.
  intros Hw. split.
  - unfold onMount.
    replace (PlatformOS_eqb os web) with true by (symmetry; exact Hw).
    reflexivity.
  - revert s. induction es as [|ev rest IH]; intros s e.
    + cbn. intros [].
    + rewrite run_cons. cbn [snd]. intros H.
      apply in_app_or in H. destruct H as [H|H].
      * exact (web_press_trace os _ _ _ _ _ Hw H).
      * exact (IH _ _ H).
Qed.

Lemma web_run_effects_upload :
  CallLaunchImageLibrary uploadOptions = CallLaunchImageLibrary uploadOptions \/
  CallLaunchImageLibrary uploadOptions = AlertAlert "Error" "Failed to pick image" \/
  CallLaunchImageLibrary uploadOptions = AlertAlert "Analyzing" "Processing image...".
Proof.
  destruct (web_run_effects web Sample.failing
              [ {| answers := Sample.working; mounted := None;
                   tapped := HandleUploadImage |} ] initialState eq_refl)
    as [_ Htaps].
  apply Htaps. cbn. left. reflexivity.
Defined.

(** A handler stores no reference but one the platform handed out. *)
Lemma handler_reference (os : PlatformOS) (env : Env) (cameraRef : option CameraView)
    (h : Handler) (s : HomeState) (uri : string) :
  capturedImage (state_of (handler os env cameraRef h s)) = Some uri ->
  capturedImage s = Some uri \/ offers env cameraRef uri.
Proof.
  unfold offers. destruct h; cbn [handler]; run_handler.
  - destruct (launchImageLibraryAsync env uploadOptions) as [r|err] eqn:Hl; cbn;
      [|auto].
    destruct (canceled r) eqn:Hc; cbn; [auto|].
    destruct (assets r) as [[|a l]|] eqn:Ha; cbn; auto.
    intros [= <-]. right. left. exists r, a, l. auto.
  - destruct (PlatformOS_eqb os web); cbn; [auto|].
    destruct cameraRef as [camera|]; cbn; [|auto].
    destruct (takePictureAsync env camera) as [[p|]|err] eqn:Ht; cbn; auto.
    intros [= <-]. right. right. exists camera, p. auto.
  - cbn. auto.
  - cbn. discriminate.
  - cbn. auto.
  - destruct (requestPermissionAsync env); cbn; auto.
Qed.

(** X14: whatever the taps and the platform's answers, the reference held at the
    end of a run is the one held at its start or one the platform handed
    out during the run, as the first asset of a picker result that was not
    canceled or as the picture of the mounted camera: the screen never
    makes up or alters a reference. *)
Theorem image_reference_provenance
    (os : PlatformOS) (es : list Event) (s : HomeState) (uri : string) :
  capturedImage (fst (run os es s)) = Some uri ->
  capturedImage s = Some uri \/
  exists e, In e es /\ offers (answers e) (mounted e) uri.
Proof.
  revert s. induction es as [|ev rest IH]; intros s.
  - cbn. auto.
  - rewrite run_cons. cbn [fst]. intros H.
    destruct (IH _ H) as [Hprev|(e & Hin & Hof)].
    + unfold press in Hprev. destruct (existsb _ _).
      * apply handler_reference in Hprev. destruct Hprev as [Hs|Hof]; [auto|].
        right. exists ev. split; [left; reflexivity | exact Hof].
      * cbn in Hprev. auto.
    + right. exists e. split; [right; exact Hin | exact Hof].
Qed.

Lemma image_reference_provenance_capture :
  capturedImage Sample.live = Some Sample.photo1 \/
  exists e,
    In e [ {| answers := Sample.working; mounted := Some Sample.camera0;
              tapped := HandleCapturePhoto |} ] /\
    offers (answers e) (mounted e) Sample.photo1.
Proof.
  apply (image_reference_provenance ios
           [ {| answers := Sample.working; mounted := Some Sample.camera0;
                tapped := HandleCapturePhoto |} ] Sample.live Sample.photo1).
  reflexivity.
Defined.

(** X17: the empty string enters [capturedImage] only if the platform
    hands it out: from a state whose reference is not the empty string, a
    run of taps during which every reference the platform offers is
    non-empty ends in a state whose reference is not the empty string. *)
Theorem reference_stays_non_empty
    (os : PlatformOS) (es : list Event) (s : HomeState) :
  capturedImage s <> Some EmptyString ->
  (forall e uri, In e es -> offers (answers e) (mounted e) uri -> uri <> EmptyString) ->
  capturedImage (fst (run os es s)) <> Some EmptyString.
Proof.
  revert s. induction es as [|ev rest IH]; intros s Hs Hes.
  - exact Hs.
  - rewrite run_cons. cbn [fst]. apply IH.
    + intros Hempty. unfold press in Hempty. destruct (existsb _ _).
      * apply handler_reference in Hempty. destruct Hempty as [Hprev|Hof].
        -- contradiction.
        -- apply (Hes ev EmptyString); [left; reflexivity | exact Hof | reflexivity].
      * cbn in Hempty. contradiction.
    + intros e uri Hin. apply Hes. right. exact Hin.
Qed.

Lemma reference_stays_non_empty_capture :
  capturedImage (fst (run ios
    [ {| answers := Sample.working; mounted := Some Sample.camera0;
         tapped := HandleCapturePhoto |} ] Sample.live)) <> Some EmptyString.
Proof.
  apply (reference_stays_non_empty ios
    [ {| answers := Sample.working; mounted := Some Sample.camera0;
         tapped := HandleCapturePhoto |} ] Sample.live).
  - discriminate.
  - intros e uri [<-|[]] [(r & a & rest & Hr & _ & Ha & Hu)|(camera & p & _ & Ht & Hu)];
      cbn in *.
    + injection Hr as <-. cbn in Ha. injection Ha as <- _. subst uri. discriminate.
    + injection Ht as <-. subst uri. discriminate.
Defined.

Lemma press_facing (os : PlatformOS) (env : Env) (cameraRef : option CameraView)
    (h : Handler) (s : HomeState) :
  h <> ToggleFacing ->
  facing (state_of (press os env cameraRef h s)) = facing s.
Proof.
  intros Hh. unfold press. destruct (existsb _ _); [|reflexivity].
  destruct h; cbn [handler]; run_handler; try reflexivity.
  - destruct (launchImageLibraryAsync env uploadOptions) as [r|err]; cbn;
      [|reflexivity].
    destruct (canceled r); cbn; [reflexivity|].
    destruct (assets r) as [[|a l]|]; reflexivity.
  - destruct (PlatformOS_eqb os web); cbn; [reflexivity|].
    destruct cameraRef as [camera|]; cbn; [|reflexivity].
    destruct (takePictureAsync env camera) as [[p|]|err]; reflexivity.
  - break.
  - destruct (requestPermissionAsync env); reflexivity.
Qed.

(** X15: the camera chosen survives everything but the camera-reverse button: a
    run of taps none of which is on that button, through captures,
    uploads, failures, retakes and analyses, ends with [facing] as it
    began. *)
Theorem facing_kept_without_reverse
    (os : PlatformOS) (es : list Event) (s : HomeState) :
  (forall e, In e es -> tapped e <> ToggleFacing) ->
  facing (fst (run os es s)) = facing s.
Proof.
  revert s. induction es as [|ev rest IH]; intros s Hes.
  - reflexivity.
  - rewrite run_cons. cbn [fst]. rewrite IH.
    + apply press_facing. apply Hes. left. reflexivity.
    + intros e Hin. apply Hes. right. exact Hin.
Qed.

Lemma facing_kept_without_reverse_cycle :
  facing (fst (run ios
    [ {| answers := Sample.working; mounted := Some Sample.camera0;
         tapped := HandleCapturePhoto |};
      {| answers := Sample.working; mounted := None; tapped := Retake |} ]
    (setFacing flip Sample.live))) = front.
Proof.
  apply (facing_kept_without_reverse ios
    [ {| answers := Sample.working; mounted := Some Sample.camera0;
         tapped := HandleCapturePhoto |};
      {| answers := Sample.working; mounted := None; tapped := Retake |} ]
    (setFacing flip Sample.live)).
  intros e [<-|[<-|[]]]; discriminate.
Defined.

Lemma press_permission (os : PlatformOS) (env : Env) (cameraRef : option CameraView)
    (h : Handler) (s : HomeState) :
  isWeb os = true \/ permissionStatus s <> Denied ->
  permission (state_of (press os env cameraRef h s)) = permission s.
Proof.
  intros Hok. unfold press. destruct (existsb _ _) eqn:Hp; [|reflexivity].
  rewrite pressable_spec in Hp.
  destruct h; cbn [handler]; run_handler; try reflexivity.
  - destruct (launchImageLibraryAsync env uploadOptions) as [r|err]; cbn;
      [|reflexivity].
    destruct (canceled r); cbn; [reflexivity|].
    destruct (assets r) as [[|a l]|]; reflexivity.
  - destruct (PlatformOS_eqb os web); cbn; [reflexivity|].
    destruct cameraRef as [camera|]; cbn; [|reflexivity].
    destruct (takePictureAsync env camera) as [[p|]|err]; reflexivity.
  - destruct Hok as [Hw|Hd].
    + rewrite Hw in Hp. discriminate Hp.
    + destruct (permissionStatus s); break;
        rewrite andb_false_r in Hp; discriminate Hp.
Qed.

(** X16: outside the permission view no tap reaches the permission: on web, or
    while the permission is granted or unresolved, a run of taps leaves
    [permission] as it was, so a granted permission is never asked for
    again and the capture flow cannot lose it. *)
Theorem permission_kept_outside_permission_view
    (os : PlatformOS) (es : list Event) (s : HomeState) :
  isWeb os = true \/ permissionStatus s <> Denied ->
  permission (fst (run os es s)) = permission s /\
  ~ In CallRequestPermission (snd (run os es s)).
Proof.
  revert s. induction es as [|ev rest IH]; intros s Hok.
  - cbn. auto.
  - rewrite run_cons. cbn [fst snd].
    pose proof (press_permission os (answers ev) (mounted ev) (tapped ev) s Hok)
      as Hperm.
    assert (Hok' : isWeb os = true \/
      permissionStatus
        (state_of (press os (answers ev) (mounted ev) (tapped ev) s)) <> Denied).
    { destruct Hok as [Hw|Hd]; [left; exact Hw|right].
      unfold permissionStatus in *. rewrite Hperm. exact Hd. }
    destruct (IH _ Hok') as [IHp IHt]. split.
    + rewrite IHp. exact Hperm.
    + intros Hin. apply in_app_or in Hin. destruct Hin as [Hin|Hin]; [|auto].
      unfold press in Hin. destruct (existsb _ _) eqn:Hp; [|destruct Hin].
      rewrite pressable_spec in Hp.
      destruct (tapped ev); cbn [handler] in Hin.
      * apply upload_trace in Hin. break.
      * apply capture_trace in Hin. break.
      * destruct Hin.
      * destruct Hin.
      * cbn in Hin. break.
      * destruct Hok as [Hw|Hd].
        -- rewrite Hw in Hp. discriminate Hp.
        -- destruct (permissionStatus s); break;
             rewrite andb_false_r in Hp; discriminate Hp.
Qed.

Lemma permission_kept_outside_permission_view_live :
  permission (fst (run ios
    [ {| answers := Sample.dismissing; mounted := None;
         tapped := RequestPermission |} ] Sample.live))
  = Some Sample.grantedResponse.
Proof.
  destruct (permission_kept_outside_permission_view ios
    [ {| answers := Sample.dismissing; mounted := None;
         tapped := RequestPermission |} ] Sample.live) as [Hkeep _].
  - right. discriminate.
  - exact Hkeep.
Defined.
